(** * HttpMethodController: the per-request dispatch pipeline

    Shallow embedding of [HttpMethodController] (lookup of the binding for
    the request's method, authentication, validation, custom validation and
    the call of the bound function), with the calls made to injected
    functions recorded in order, so that "is never invoked" and "is invoked
    once, with this argument" are statements about a dispatch. *)

From stdpp Require Import gmap strings list fin_maps.
From Stdlib Require Import ZArith Sorted.

Local Open Scope Z_scope.

(** ** Data passed in and out (declared by aws-lambda) *)

(** [HttpMethod] is a string enum declared in another module. Its members
    are what [setMethod] is given as keys of the [conditions] object; the
    dispatcher reads that object with [event.httpMethod], which is any
    string ([as HttpMethod] checks nothing when the code runs). *)
Definition HttpMethod : Type := string.

(** The properties every object literal inherits from [Object.prototype]:
    [conditions] starts as [{}], so reading one of these names on it gives
    the inherited function (or, for [__proto__], the prototype itself)
    unless [setMethod] wrote a property of that name. *)
Definition objectPrototypeKeys : list string :=
  ["constructor"; "__defineGetter__"; "__defineSetter__"; "hasOwnProperty";
   "__lookupGetter__"; "__lookupSetter__"; "isPrototypeOf";
   "propertyIsEnumerable"; "toString"; "valueOf"; "__proto__";
   "toLocaleString"].

Module APIGatewayProxyEvent.
Record t : Type := Build {
  httpMethod : HttpMethod;
  headers : gmap string string;
  pathParameters : option (gmap string string);
  body : option string;
  queryStringParameters : option (gmap string string)
}.
End APIGatewayProxyEvent.

Module APIGatewayProxyResult.
Record t : Type := Build {
  statusCode : Z;
  body : string
}.
End APIGatewayProxyResult.

(** ** Types declared next to the controller *)

Module CallFunctionEventParameter.
Record t (E : Type) : Type := Build {
  headers : gmap string string;
  pathParameters : option (gmap string string);
  body : option string;
  queryParameters : option (gmap string string);
  userInfo : option E
}.
Arguments Build {E}.
Arguments headers {E}.
Arguments pathParameters {E}.
Arguments body {E}.
Arguments queryParameters {E}.
Arguments userInfo {E}.
End CallFunctionEventParameter.

Module CustomValidationFunctionEventParameter.
Record t : Type := Build {
  headers : gmap string string;
  pathParameters : option (gmap string string);
  body : option string;
  queryParameters : option (gmap string string)
}.
End CustomValidationFunctionEventParameter.

Record CustomValidationFunctionResult : Type := {
  validationResult : bool;
  errorResponse : option APIGatewayProxyResult.t
}.

Record AuthenticationFunctionResult (E : Type) : Type := {
  userInfo : option E;
  error401 : bool;
  error500 : bool
}.
Arguments Build_AuthenticationFunctionResult {E}.
Arguments userInfo {E}.
Arguments error401 {E}.
Arguments error500 {E}.

(** [Validator] is declared in another module; only its name is used here. *)
Record IValidation (Validator : Type) : Type := {
  bodyValidator : option Validator;
  paramValidator : option Validator;
  queryValidator : option Validator;
  headerValidator : option Validator
}.
Arguments Build_IValidation {Validator}.
Arguments bodyValidator {Validator}.
Arguments paramValidator {Validator}.
Arguments queryValidator {Validator}.
Arguments headerValidator {Validator}.

(** ** Promises and calls *)

(** What a [throw] or a rejection carries: the [TypeError] of calling
    something that is not a function, or a value raised by injected code. *)
Inductive Reason (Thrown : Type) : Type :=
  | TypeError
  | Raised (v : Thrown).
Arguments TypeError {Thrown}.
Arguments Raised {Thrown}.

(** A settled promise. *)
Inductive Settled (Thrown A : Type) : Type :=
  | Fulfilled (a : A)
  | Rejected (r : Reason Thrown).
Arguments Fulfilled {Thrown A}.
Arguments Rejected {Thrown A}.

(** A call of a function typed [(...) => Promise<A>]: it throws before it
    returns, or it returns a promise. *)
Inductive Invocation (Thrown A : Type) : Type :=
  | Throws (r : Reason Thrown)
  | Returns (p : Settled Thrown A).
Arguments Throws {Thrown A}.
Arguments Returns {Thrown A}.

(** [promise.catch(h)] for a handler [h] that returns a value. *)
Definition catch {Thrown A : Type} (p : Settled Thrown A)
    (h : Reason Thrown -> A) : Settled Thrown A :=
  match p with
  | Fulfilled a => Fulfilled a
  | Rejected r => Fulfilled (h r)
  end.

Section Model.
Context {E Validator Thrown : Type}.

Definition AuthenticationFunction : Type :=
  APIGatewayProxyEvent.t ->
  Invocation Thrown (AuthenticationFunctionResult E).

Definition CustomValidationFunction : Type :=
  CustomValidationFunctionEventParameter.t ->
  Invocation Thrown CustomValidationFunctionResult.

Definition CallFunction : Type :=
  CallFunctionEventParameter.t E ->
  Invocation Thrown APIGatewayProxyResult.t.

(** The first argument is [None] when the code passes [undefined]. *)
Definition ValidationFunction : Type :=
  option (IValidation Validator) ->
  gmap string string ->
  option (gmap string string) ->
  option string ->
  option (gmap string string) ->
  Invocation Thrown bool.

Record Condition : Type := {
  isAuthentication : bool;
  validation : IValidation Validator;
  func : string;
  customValidationFunc : option CustomValidationFunction
}.

(** What [conditions[key]] evaluates to when it is not [undefined]: a
    condition [setMethod] registered, or a member of [Object.prototype]. *)
Inductive ConditionsValue : Type :=
  | Registered (condition : Condition)
  | ObjectPrototypeMember.

(** The four properties the dispatcher reads on that value. A member of
    [Object.prototype] has none of them: each read gives [undefined], which
    is falsy as [isAuthentication] and the key ["undefined"] as [func]. *)
Definition conditionIsAuthentication (v : ConditionsValue) : bool :=
  match v with
  | Registered condition => isAuthentication condition
  | ObjectPrototypeMember => false
  end.

Definition conditionValidation (v : ConditionsValue)
    : option (IValidation Validator) :=
  match v with
  | Registered condition => Some (validation condition)
  | ObjectPrototypeMember => None
  end.

Definition conditionFunc (v : ConditionsValue) : string :=
  match v with
  | Registered condition => func condition
  | ObjectPrototypeMember => "undefined"
  end.

Definition conditionCustomValidationFunc (v : ConditionsValue)
    : option CustomValidationFunction :=
  match v with
  | Registered condition => customValidationFunc condition
  | ObjectPrototypeMember => None
  end.

(** A controller instance: the own properties of its [conditions] object
    (what [setMethod] wrote) and, by name, the members of the subclass
    that can be called as a [CallFunction]. *)
Record HttpMethodController : Type := {
  conditions : gmap HttpMethod Condition;
  members : gmap string CallFunction
}.

(** [controller.conditions[key]]: an own property first, then the
    prototype; [None] is [undefined]. *)
Definition conditionsLookup (controller : HttpMethodController)
    (key : HttpMethod) : option ConditionsValue :=
  match conditions controller !! key with
  | Some condition => Some (Registered condition)
  | None =>
      if bool_decide ((key : string) ∈ objectPrototypeKeys)
      then Some ObjectPrototypeMember
      else None
  end.

(** One call made to injected code during a dispatch. *)
Inductive Call : Type :=
  | AuthenticationCall (event : APIGatewayProxyEvent.t)
  | ValidationCall (validation : option (IValidation Validator))
      (headers : gmap string string)
      (pathParameters : option (gmap string string))
      (body : option string)
      (queryParameters : option (gmap string string))
  | CustomValidationCall (event : CustomValidationFunctionEventParameter.t)
  | FunctionCall (key : string) (event : CallFunctionEventParameter.t E).

(** The body of an [async] function: the calls it made, in order, and how
    its promise settled. *)
Definition Async (A : Type) : Type := (list Call * Settled Thrown A)%type.

Definition ret {A : Type} (a : A) : Async A := ([], Fulfilled a).

Definition reject {A : Type} (r : Reason Thrown) : Async A :=
  ([], Rejected r).

Definition bind {A B : Type} (m : Async A) (k : A -> Async B) : Async B :=
  match m with
  | (calls, Fulfilled a) =>
      let '(calls', s) := k a in (calls ++ calls', s)
  | (calls, Rejected r) => (calls, Rejected r)
  end.

(** A call expression [f(args)]: the call is recorded; a throw ends the
    enclosing [async] body, otherwise the promise is at hand. *)
Definition invoke {A : Type} (c : Call) (i : Invocation Thrown A)
    : Async (Settled Thrown A) :=
  match i with
  | Throws r => ([c], Rejected r)
  | Returns p => ([c], Fulfilled p)
  end.

(** [await p], and also [return p] of a promise from an [async] body. *)
Definition await {A : Type} (p : Settled Thrown A) : Async A := ([], p).
End Model.

Arguments Condition : clear implicits.
Arguments ConditionsValue : clear implicits.
Arguments HttpMethodController : clear implicits.
Arguments Call : clear implicits.
Arguments Async : clear implicits.
Arguments AuthenticationFunction : clear implicits.
Arguments CustomValidationFunction : clear implicits.
Arguments CallFunction : clear implicits.
Arguments ValidationFunction : clear implicits.

(** A registered condition is used where a value read from [conditions]
    is expected. *)
Coercion Registered : Condition >-> ConditionsValue.

Notation "x <- m ;; k" := (bind m (fun x => k))
  (at level 62, m at level 50, right associativity).

(** ** The canonical responses *)

Definition badRequestResponse : APIGatewayProxyResult.t :=
  {| APIGatewayProxyResult.statusCode := 400;
     APIGatewayProxyResult.body := "Bad Request" |}.

Definition unauthorizeErrorResponse : APIGatewayProxyResult.t :=
  {| APIGatewayProxyResult.statusCode := 401;
     APIGatewayProxyResult.body := "Unauthorize" |}.

Definition internalServerErrorResponse : APIGatewayProxyResult.t :=
  {| APIGatewayProxyResult.statusCode := 500;
     APIGatewayProxyResult.body := "Internal Server Error" |}.

Section Controller.
Context {E Validator Thrown : Type}.

(** [Validation.check] lives in another module of the repository; the
    dispatcher is parameterised by it. *)
Variable Validation_check : ValidationFunction Validator Thrown.

(** The static slot [HttpMethodController.authenticationFunc]. *)
Variable authenticationFunc : option (AuthenticationFunction E Thrown).

Definition auth (event : APIGatewayProxyEvent.t)
    (condition : ConditionsValue Validator Thrown)
    : Async E Validator Thrown (AuthenticationFunctionResult E) :=
  if conditionIsAuthentication condition then
    match authenticationFunc with
    | None =>
        ret {| userInfo := None; error401 := false; error500 := true |}
    | Some f =>
        p <- invoke (AuthenticationCall event) (f event) ;;
        result <- await (catch p (fun _ =>
          {| userInfo := None; error401 := false; error500 := true |})) ;;
        ret result
    end
  else
    ret {| userInfo := None; error401 := false; error500 := false |}.

(** The object literal of lines 137-143, the argument of the bound
    function. *)
Definition callFunctionEvent (event : APIGatewayProxyEvent.t)
    (authResult : AuthenticationFunctionResult E)
    : CallFunctionEventParameter.t E :=
  {| CallFunctionEventParameter.headers :=
       APIGatewayProxyEvent.headers event;
     CallFunctionEventParameter.pathParameters :=
       APIGatewayProxyEvent.pathParameters event;
     CallFunctionEventParameter.body := APIGatewayProxyEvent.body event;
     CallFunctionEventParameter.queryParameters :=
       APIGatewayProxyEvent.queryStringParameters event;
     CallFunctionEventParameter.userInfo := userInfo authResult |}.

(** The object literal of lines 123-128, the argument of
    [customValidationFunc]. *)
Definition customValidationEvent (event : APIGatewayProxyEvent.t)
    : CustomValidationFunctionEventParameter.t :=
  {| CustomValidationFunctionEventParameter.body :=
       APIGatewayProxyEvent.body event;
     CustomValidationFunctionEventParameter.headers :=
       APIGatewayProxyEvent.headers event;
     CustomValidationFunctionEventParameter.pathParameters :=
       APIGatewayProxyEvent.pathParameters event;
     CustomValidationFunctionEventParameter.queryParameters :=
       APIGatewayProxyEvent.queryStringParameters event |}.

(** Lines 137-143: [controller[condition.func]] is looked up on the
    instance and called; calling a missing member throws. *)
Definition callFunction (controller : HttpMethodController E Validator Thrown)
    (condition : ConditionsValue Validator Thrown)
    (event : APIGatewayProxyEvent.t)
    (authResult : AuthenticationFunctionResult E)
    : Async E Validator Thrown APIGatewayProxyResult.t :=
  match members controller !! conditionFunc condition with
  | None => reject TypeError
  | Some f =>
      p <- invoke
             (FunctionCall (conditionFunc condition)
                (callFunctionEvent event authResult))
             (f (callFunctionEvent event authResult)) ;;
      await (catch p (fun _ => internalServerErrorResponse))
  end.

(** Lines 122-135: [Some r] is an early [return r]. *)
Definition customValidation (condition : ConditionsValue Validator Thrown)
    (event : APIGatewayProxyEvent.t)
    : Async E Validator Thrown (option APIGatewayProxyResult.t) :=
  match conditionCustomValidationFunc condition with
  | Some f =>
      p <- invoke (CustomValidationCall (customValidationEvent event))
             (f (customValidationEvent event)) ;;
      customValidationResult <- await p ;;
      match errorResponse customValidationResult with
      | Some response => ret (Some response)
      | None =>
          if negb (validationResult customValidationResult)
          then ret (Some badRequestResponse)
          else ret None
      end
  | None => ret None
  end.

(** Lines 111-117: the call of [Validation.check]. *)
Definition validationCall (condition : ConditionsValue Validator Thrown)
    (event : APIGatewayProxyEvent.t) : Call E Validator :=
  ValidationCall (conditionValidation condition)
    (APIGatewayProxyEvent.headers event)
    (APIGatewayProxyEvent.pathParameters event)
    (APIGatewayProxyEvent.body event)
    (APIGatewayProxyEvent.queryStringParameters event).

Definition handler (controller : HttpMethodController E Validator Thrown)
    (event : APIGatewayProxyEvent.t)
    : Async E Validator Thrown APIGatewayProxyResult.t :=
  match
    conditionsLookup controller (APIGatewayProxyEvent.httpMethod event)
  with
  | None => ret badRequestResponse
  | Some condition =>
      authResult <- auth event condition ;;
      if error401 authResult then ret unauthorizeErrorResponse else
      if error500 authResult then ret internalServerErrorResponse else
      p <- invoke (validationCall condition event)
             (Validation_check (conditionValidation condition)
                (APIGatewayProxyEvent.headers event)
                (APIGatewayProxyEvent.pathParameters event)
                (APIGatewayProxyEvent.body event)
                (APIGatewayProxyEvent.queryStringParameters event)) ;;
      validationResult <- await p ;;
      if negb validationResult then ret badRequestResponse else
      early <- customValidation condition event ;;
      match early with
      | Some response => ret response
      | None => callFunction controller condition event authResult
      end
  end.

Definition setMethod (method : HttpMethod)
    (condition : Condition Validator Thrown)
    (this : HttpMethodController E Validator Thrown)
    : HttpMethodController E Validator Thrown :=
  {| conditions := <[method := condition]> (conditions this);
     members := members this |}.
End Controller.

(** ** Reading a dispatch *)

Definition isFunctionCall {E Validator : Type} (c : Call E Validator) : bool :=
  match c with
  | FunctionCall _ _ => true
  | _ => false
  end.

(** The custom validation gate lets the request through: no function is
    bound, or the bound one fulfils with [validationResult] true and no
    [errorResponse]. [calls] is what the gate called. *)
Definition passesCustomValidation {E Validator Thrown : Type}
    (condition : Condition Validator Thrown)
    (event : APIGatewayProxyEvent.t)
    (calls : list (Call E Validator)) : Prop :=
  (customValidationFunc condition = None /\ calls = []) \/
  (exists f r,
     customValidationFunc condition = Some f /\
     f (customValidationEvent event) = Returns (Fulfilled r) /\
     errorResponse r = None /\
     validationResult r = true /\
     calls = [CustomValidationCall (customValidationEvent event)]).

(** The place of a call in the pipeline: authentication, validation,
    custom validation, bound function. *)
Definition callStage {E Validator : Type} (c : Call E Validator) : nat :=
  match c with
  | AuthenticationCall _ => 0%nat
  | ValidationCall _ _ _ _ _ => 1%nat
  | CustomValidationCall _ => 2%nat
  | FunctionCall _ _ => 3%nat
  end.

(** The arguments of call [c] are those the dispatcher builds from [event]
    and [condition]: the raw event, the condition's validators with the
    event's four fields, the four fields alone, or the four fields under the
    key [condition.func] (the user information is not constrained here). *)
Definition callFromEvent {E Validator Thrown : Type}
    (condition : Condition Validator Thrown)
    (event : APIGatewayProxyEvent.t) (c : Call E Validator) : Prop :=
  match c with
  | AuthenticationCall ev => ev = event
  | ValidationCall v h p b q =>
      v = Some (validation condition) /\
      h = APIGatewayProxyEvent.headers event /\
      p = APIGatewayProxyEvent.pathParameters event /\
      b = APIGatewayProxyEvent.body event /\
      q = APIGatewayProxyEvent.queryStringParameters event
  | CustomValidationCall ev =>
      CustomValidationFunctionEventParameter.headers ev
        = APIGatewayProxyEvent.headers event /\
      CustomValidationFunctionEventParameter.pathParameters ev
        = APIGatewayProxyEvent.pathParameters event /\
      CustomValidationFunctionEventParameter.body ev
        = APIGatewayProxyEvent.body event /\
      CustomValidationFunctionEventParameter.queryParameters ev
        = APIGatewayProxyEvent.queryStringParameters event
  | FunctionCall key arg =>
      key = func condition /\
      CallFunctionEventParameter.headers arg
        = APIGatewayProxyEvent.headers event /\
      CallFunctionEventParameter.pathParameters arg
        = APIGatewayProxyEvent.pathParameters event /\
      CallFunctionEventParameter.body arg
        = APIGatewayProxyEvent.body event /\
      CallFunctionEventParameter.queryParameters arg
        = APIGatewayProxyEvent.queryStringParameters event
  end.

(** ** A concrete controller

    One subclass with a [get] member bound to GET, no field validators, and
    user information given as a user id. *)
Module Example.
Definition UserInfo : Type := string.
Definition Validator : Type := Empty_set.
Definition Thrown : Type := string.

(** A [Validation.check] that passes whatever it is given: with every
    validator absent the validation gate passes. *)
Definition check : ValidationFunction Validator Thrown :=
  fun _ _ _ _ _ => Returns (Fulfilled true).

Definition noValidation : IValidation Validator :=
  {| bodyValidator := None; paramValidator := None;
     queryValidator := None; headerValidator := None |}.

Definition okResponse : APIGatewayProxyResult.t :=
  {| APIGatewayProxyResult.statusCode := 200;
     APIGatewayProxyResult.body := "ok" |}.

Definition teapotResponse : APIGatewayProxyResult.t :=
  {| APIGatewayProxyResult.statusCode := 418;
     APIGatewayProxyResult.body := "teapot" |}.

Definition get : CallFunction UserInfo Thrown :=
  fun _ => Returns (Fulfilled okResponse).

Definition getEvent : APIGatewayProxyEvent.t :=
  {| APIGatewayProxyEvent.httpMethod := "GET";
     APIGatewayProxyEvent.headers := ∅;
     APIGatewayProxyEvent.pathParameters := None;
     APIGatewayProxyEvent.body := None;
     APIGatewayProxyEvent.queryStringParameters := None |}.

(** A request whose method names a property of [Object.prototype]. *)
Definition constructorEvent : APIGatewayProxyEvent.t :=
  {| APIGatewayProxyEvent.httpMethod := "constructor";
     APIGatewayProxyEvent.headers := ∅;
     APIGatewayProxyEvent.pathParameters := None;
     APIGatewayProxyEvent.body := None;
     APIGatewayProxyEvent.queryStringParameters := None |}.

Definition condition (isAuthentication : bool)
    (custom : option (CustomValidationFunction Thrown))
    : Condition Validator Thrown :=
  {| isAuthentication := isAuthentication;
     validation := noValidation;
     func := "get";
     customValidationFunc := custom |}.

Definition getRejects : CallFunction UserInfo Thrown :=
  fun _ => Returns (Rejected (Raised "down")).

Definition emptyController : HttpMethodController UserInfo Validator Thrown :=
  {| conditions := ∅; members := {[ "get" := get ]} |}.

Definition controller (isAuthentication : bool)
    (custom : option (CustomValidationFunction Thrown))
    : HttpMethodController UserInfo Validator Thrown :=
  setMethod "GET" (condition isAuthentication custom) emptyController.

(** Authentication functions: one that accepts, one that answers
    unauthorized, one that sets both error flags. *)
Definition accepts : AuthenticationFunction UserInfo Thrown :=
  fun _ => Returns (Fulfilled
    {| userInfo := Some "u1"; error401 := false; error500 := false |}).

Definition unauthorized : AuthenticationFunction UserInfo Thrown :=
  fun _ => Returns (Fulfilled
    {| userInfo := None; error401 := true; error500 := false |}).

Definition bothErrors : AuthenticationFunction UserInfo Thrown :=
  fun _ => Returns (Fulfilled
    {| userInfo := None; error401 := true; error500 := true |}).

(** Custom validation functions. *)
Definition customRejects : CustomValidationFunction Thrown :=
  fun _ => Returns (Rejected (Raised "boom")).

Definition customOverrides : CustomValidationFunction Thrown :=
  fun _ => Returns (Fulfilled
    {| validationResult := true; errorResponse := Some teapotResponse |}).

Definition customFails : CustomValidationFunction Thrown :=
  fun _ => Returns (Fulfilled
    {| validationResult := false; errorResponse := None |}).

Definition customPasses : CustomValidationFunction Thrown :=
  fun _ => Returns (Fulfilled
    {| validationResult := true; errorResponse := None |}).
End Example.

(** ** The example authentication function (example/Authentication.ts)

    [UserType] is declared in another module of the example; the two fields
    are those of the literal the function resolves with. The executor of
    [new Promise] runs at once and resolves, for every event. *)
Module ExampleAuthentication.
Record UserType : Type := {
  userId : string;
  role : string
}.

Definition authentication {Thrown : Type}
    : AuthenticationFunction UserType Thrown :=
  fun _ =>
    Returns (Fulfilled
      {| userInfo :=
           Some {| userId := "6e1dca92-70f5-4531-8dc2-cc20dbca363b";
                   role := "admin" |};
         error401 := false;
         error500 := false |}).
End ExampleAuthentication.

(** ** More injected functions for the example controller *)
Module Cases.
Import Example.

Definition authRejects : AuthenticationFunction UserInfo Thrown :=
  fun _ => Returns (Rejected (Raised "expired")).

Definition authThrows : AuthenticationFunction UserInfo Thrown :=
  fun _ => Throws (Raised "no header").

Definition authInternal : AuthenticationFunction UserInfo Thrown :=
  fun _ => Returns (Fulfilled
    {| userInfo := None; error401 := false; error500 := true |}).

Definition checkFails : ValidationFunction Validator Thrown :=
  fun _ _ _ _ _ => Returns (Fulfilled false).

Definition checkRejects : ValidationFunction Validator Thrown :=
  fun _ _ _ _ _ => Returns (Rejected (Raised "schema")).

(** A controller whose GET binding names a member that does not exist. *)
Definition unresolved : HttpMethodController UserInfo Validator Thrown :=
  {| conditions := {[ "GET" := condition false None ]}; members := ∅ |}.

Definition postEvent : APIGatewayProxyEvent.t :=
  {| APIGatewayProxyEvent.httpMethod := "POST";
     APIGatewayProxyEvent.headers := {[ "content-type" := "text/plain" ]};
     APIGatewayProxyEvent.pathParameters := None;
     APIGatewayProxyEvent.body := Some "hello";
     APIGatewayProxyEvent.queryStringParameters := None |}.

Definition getThrows : CallFunction UserInfo Thrown :=
  fun _ => Throws (Raised "bug").

Definition throwing : HttpMethodController UserInfo Validator Thrown :=
  {| conditions := {[ "GET" := condition false None ]};
     members := {[ "get" := getThrows ]} |}.

(** A controller for the example's [UserType], GET bound with
    authentication to a member that answers with the user's role. *)
Definition whoami : CallFunction ExampleAuthentication.UserType Thrown :=
  fun event =>
    Returns (Fulfilled
      {| APIGatewayProxyResult.statusCode := 200;
         APIGatewayProxyResult.body :=
           match CallFunctionEventParameter.userInfo event with
           | Some user => ExampleAuthentication.role user
           | None => "nobody"
           end |}).

Definition adminController
    : HttpMethodController ExampleAuthentication.UserType Validator Thrown :=
  {| conditions :=
       {[ "GET" := {| isAuthentication := true;
                      validation := noValidation;
                      func := "whoami";
                      customValidationFunc := None |} ]};
     members := {[ "whoami" := whoami ]} |}.

(** GET bound as in [Example], POST bound with authentication. *)
Definition twoMethods (custom : option (CustomValidationFunction Thrown))
    : HttpMethodController UserInfo Validator Thrown :=
  setMethod "POST" (condition true custom) (controller false None).
End Cases.

(** * Properties of a dispatch *)

(** Reads of the four properties on a registered condition. *)
Ltac read_condition :=
  cbn [conditionIsAuthentication conditionValidation conditionFunc
       conditionCustomValidationFunc] in *.

Section Properties.
Context {E Validator Thrown : Type}.
Variable Validation_check : ValidationFunction Validator Thrown.
Variable authenticationFunc : option (AuthenticationFunction E Thrown).

Implicit Types (controller : HttpMethodController E Validator Thrown).
Implicit Types (condition : Condition Validator Thrown).
Implicit Types (event : APIGatewayProxyEvent.t).
Implicit Types (authResult : AuthenticationFunctionResult E).
Implicit Types (calls ccalls : list (Call E Validator)).

Local Abbreviation dispatch := (handler Validation_check authenticationFunc).
Local Abbreviation authenticate := (auth authenticationFunc).

(** *** The small monad *)

Lemma bind_ret_l {A B : Type} (a : A)
    (k : A -> Async E Validator Thrown B) :
  bind (ret a) k = k a.
Proof. unfold bind, ret. simpl. now destruct (k a). Qed.

Lemma bind_fulfilled {A B : Type} calls (a : A)
    (k : A -> Async E Validator Thrown B) :
  bind (calls, Fulfilled a) k = (calls ++ fst (k a), snd (k a)).
Proof. unfold bind. now destruct (k a). Qed.

Lemma bind_rejected {A B : Type} calls (r : Reason Thrown)
    (k : A -> Async E Validator Thrown B) :
  bind (calls, Rejected r) k = (calls, Rejected r).
Proof. reflexivity. Qed.

(** *** Authentication *)

Lemma auth_skipped event condition :
  isAuthentication condition = false ->
  authenticate event condition =
    ([], Fulfilled
           {| userInfo := None; error401 := false; error500 := false |}).
Proof. intros Hskip. unfold auth. read_condition. now rewrite Hskip. Qed.

Lemma auth_unconfigured event condition :
  isAuthentication condition = true ->
  authenticationFunc = None ->
  authenticate event condition =
    ([], Fulfilled
           {| userInfo := None; error401 := false; error500 := true |}).
Proof.
  intros Hreq Hnone. unfold auth. read_condition. now rewrite Hreq, Hnone.
Qed.

(** An outcome with [error401] set comes from the configured function,
    called once. *)
Lemma auth_error401_calls event condition calls authResult :
  authenticate event condition = (calls, Fulfilled authResult) ->
  error401 authResult = true ->
  calls = [AuthenticationCall event].
Proof.
  unfold auth. read_condition. intros Hauth H401.
  destruct (isAuthentication condition).
  - destruct authenticationFunc as [f|].
    + destruct (f event) as [r|[a|r]]; simpl in Hauth.
      * discriminate.
      * now inversion Hauth.
      * inversion Hauth; subst. discriminate.
    + inversion Hauth; subst. discriminate.
  - inversion Hauth; subst. discriminate.
Qed.

(** Authentication calls nothing but the authentication function. *)
Lemma auth_calls event condition c :
  In c (fst (authenticate event condition)) ->
  c = AuthenticationCall event.
Proof.
  unfold auth. read_condition.
  destruct (isAuthentication condition); [|now simpl].
  destruct authenticationFunc as [f|]; [|now simpl].
  destruct (f event) as [r|[a|r]]; simpl; intuition.
Qed.

Lemma auth_calls_no_function event condition :
  List.filter isFunctionCall (fst (authenticate event condition)) = [].
Proof.
  unfold auth. read_condition.
  destruct (isAuthentication condition); [|reflexivity].
  destruct authenticationFunc as [f|]; [|reflexivity].
  now destruct (f event) as [r|[a|r]].
Qed.

(** *** The dispatcher, stage by stage *)

Lemma handler_error401 controller event condition calls authResult :
  conditions controller !! APIGatewayProxyEvent.httpMethod event
    = Some condition ->
  authenticate event condition = (calls, Fulfilled authResult) ->
  error401 authResult = true ->
  dispatch controller event = (calls, Fulfilled unauthorizeErrorResponse).
Proof.
  intros Hbound Hauth H401. unfold handler, conditionsLookup.
  rewrite Hbound, Hauth, bind_fulfilled, H401. simpl.
  now rewrite app_nil_r.
Qed.

Section PastValidation.
Variables (controller : HttpMethodController E Validator Thrown)
          (event : APIGatewayProxyEvent.t)
          (condition : Condition Validator Thrown)
          (calls : list (Call E Validator))
          (authResult : AuthenticationFunctionResult E).

Hypothesis bound :
  conditions controller !! APIGatewayProxyEvent.httpMethod event
    = Some condition.
Hypothesis authenticated :
  authenticate event condition = (calls, Fulfilled authResult).
Hypothesis no401 : error401 authResult = false.
Hypothesis no500 : error500 authResult = false.
Hypothesis valid :
  Validation_check (Some (validation condition))
    (APIGatewayProxyEvent.headers event)
    (APIGatewayProxyEvent.pathParameters event)
    (APIGatewayProxyEvent.body event)
    (APIGatewayProxyEvent.queryStringParameters event)
  = Returns (Fulfilled true).

(** What is left of the dispatcher once the validation gate passed. *)
Lemma handler_past_validation :
  dispatch controller event =
    let rest :=
      early <- customValidation condition event ;;
      match early with
      | Some response => ret response
      | None => callFunction controller condition event authResult
      end in
    (calls ++ validationCall condition event :: fst rest, snd rest).
Proof using bound authenticated no401 no500 valid.
  unfold handler, conditionsLookup.
  rewrite bound, authenticated, bind_fulfilled, no401, no500.
  read_condition. rewrite valid.
  simpl invoke. rewrite bind_fulfilled. unfold await.
  rewrite bind_fulfilled. simpl negb. cbv iota. simpl.
  reflexivity.
Qed.

Lemma handler_customValidation_settles f r :
  customValidationFunc condition = Some f ->
  f (customValidationEvent event) = Returns (Fulfilled r) ->
  dispatch controller event =
    let rest :=
      match errorResponse r with
      | Some response => ret response
      | None =>
          if negb (validationResult r) then ret badRequestResponse
          else callFunction controller condition event authResult
      end in
    (calls ++ [validationCall condition event;
               CustomValidationCall (customValidationEvent event)]
           ++ fst rest,
     snd rest).
Proof using bound authenticated no401 no500 valid.
  intros Hcustom Hr. rewrite handler_past_validation.
  unfold customValidation. read_condition. rewrite Hcustom, Hr. simpl.
  destruct (errorResponse r) as [response|];
    [|destruct (validationResult r)]; simpl.
  - reflexivity.
  - now destruct (callFunction controller condition event authResult).
  - reflexivity.
Qed.

(** A rejection of the custom validator is the dispatcher's own
    rejection: no [catch] stands between the two. *)
Lemma handler_customValidation_rejects f r :
  customValidationFunc condition = Some f ->
  f (customValidationEvent event) = Returns (Rejected r) ->
  dispatch controller event =
    (calls ++ [validationCall condition event;
               CustomValidationCall (customValidationEvent event)],
     Rejected r).
Proof using bound authenticated no401 no500 valid.
  intros Hcustom Hr. rewrite handler_past_validation.
  unfold customValidation. read_condition. rewrite Hcustom, Hr. reflexivity.
Qed.

Lemma handler_passes_customValidation ccalls :
  passesCustomValidation condition event ccalls ->
  dispatch controller event =
    let rest := callFunction controller condition event authResult in
    (calls ++ validationCall condition event :: ccalls ++ fst rest,
     snd rest).
Proof using bound authenticated no401 no500 valid.
  intros [[Hnone ->]|(f & r & Hcustom & Hr & Hresp & Hres & ->)].
  - rewrite handler_past_validation. unfold customValidation. read_condition.
    rewrite Hnone, bind_ret_l. reflexivity.
  - rewrite (handler_customValidation_settles f r Hcustom Hr).
    rewrite Hresp, Hres. reflexivity.
Qed.

Lemma passesCustomValidation_no_function ccalls :
  passesCustomValidation condition event ccalls ->
  List.filter isFunctionCall ccalls = [].
Proof.
  now intros [[_ ->]|(f & r & _ & _ & _ & _ & ->)].
Qed.

(** C6: when the bound custom validator fulfils with an [errorResponse],
    the dispatch fulfils with that very response, whatever its status
    code and whatever [validationResult] says, and the bound function is
    not called. *)
Theorem handler_errorResponse_wins f r response :
  customValidationFunc condition = Some f ->
  f (customValidationEvent event) = Returns (Fulfilled r) ->
  errorResponse r = Some response ->
  dispatch controller event =
    (calls ++ [validationCall condition event;
               CustomValidationCall (customValidationEvent event)],
     Fulfilled response).
Proof using bound authenticated no401 no500 valid.
  intros Hcustom Hr Hresp.
  rewrite (handler_customValidation_settles f r Hcustom Hr), Hresp.
  reflexivity.
Qed.

(** C7: when the bound custom validator fulfils with [validationResult]
    false and no [errorResponse], the dispatch fulfils with the bad
    request response and the bound function is never called. *)
Theorem handler_customValidation_fails f r :
  customValidationFunc condition = Some f ->
  f (customValidationEvent event) = Returns (Fulfilled r) ->
  errorResponse r = None ->
  validationResult r = false ->
  dispatch controller event =
    (calls ++ [validationCall condition event;
               CustomValidationCall (customValidationEvent event)],
     Fulfilled badRequestResponse) /\
  List.filter isFunctionCall (fst (dispatch controller event)) = [].
Proof using bound authenticated no401 no500 valid.
  intros Hcustom Hr Hresp Hres.
  rewrite (handler_customValidation_settles f r Hcustom Hr), Hresp, Hres.
  simpl. split; [reflexivity|].
  rewrite List.filter_app. simpl. rewrite app_nil_r.
  replace calls with (fst (authenticate event condition))
    by now rewrite authenticated.
  apply auth_calls_no_function.
Qed.

(** C8: when every gate passes, the bound function is called exactly
    once, with the event merged from the request's headers, path
    parameters, body and query parameters and the authentication
    result's user information; a promise that fulfils gives the
    dispatch its response unchanged, a promise that rejects gives the
    internal server error response. *)
Theorem handler_calls_function ccalls f p :
  passesCustomValidation condition event ccalls ->
  members controller !! func condition = Some f ->
  f (callFunctionEvent event authResult) = Returns p ->
  dispatch controller event =
    (calls ++ validationCall condition event :: ccalls ++
       [FunctionCall (func condition)
          (callFunctionEvent event authResult)],
     Fulfilled
       match p with
       | Fulfilled response => response
       | Rejected _ => internalServerErrorResponse
       end) /\
  List.filter isFunctionCall (fst (dispatch controller event)) =
    [FunctionCall (func condition)
       {| CallFunctionEventParameter.headers :=
            APIGatewayProxyEvent.headers event;
          CallFunctionEventParameter.pathParameters :=
            APIGatewayProxyEvent.pathParameters event;
          CallFunctionEventParameter.body :=
            APIGatewayProxyEvent.body event;
          CallFunctionEventParameter.queryParameters :=
            APIGatewayProxyEvent.queryStringParameters event;
          CallFunctionEventParameter.userInfo :=
            userInfo authResult |}].
Proof using bound authenticated no401 no500 valid.
  intros Hpass Hmember Hp.
  rewrite (handler_passes_customValidation ccalls Hpass).
  unfold callFunction. read_condition. rewrite Hmember, Hp. simpl.
  split.
  - now destruct p.
  - rewrite List.filter_app. simpl. rewrite List.filter_app. simpl.
    rewrite (passesCustomValidation_no_function ccalls Hpass).
    replace calls with (fst (authenticate event condition))
      by now rewrite authenticated.
    now rewrite auth_calls_no_function.
Qed.
End PastValidation.

(** C2: with [isAuthentication] set and an authentication outcome whose
    [error401] is set, the dispatch fulfils with the unauthorized
    response, and the only call made is the one of the authentication
    function: [Validation.check], the custom validation function and the
    bound function are not called. *)
Theorem handler_unauthorized controller event condition calls authResult :
  conditions controller !! APIGatewayProxyEvent.httpMethod event
    = Some condition ->
  isAuthentication condition = true ->
  authenticate event condition = (calls, Fulfilled authResult) ->
  error401 authResult = true ->
  dispatch controller event =
    ([AuthenticationCall event], Fulfilled unauthorizeErrorResponse).
Proof.
  intros Hbound _ Hauth H401.
  rewrite (handler_error401 _ _ _ _ _ Hbound Hauth H401).
  now rewrite (auth_error401_calls _ _ _ _ Hauth H401).
Qed.

(** C3, on the code: [conditions] is an object literal, so a method that
    [setMethod] never bound but that names a property of [Object.prototype]
    does not read as [undefined]. The dispatch then goes on as for a
    binding without any property: it calls [Validation.check] with
    [undefined] validators first, and when that check passes and the
    controller has no member named [undefined] it rejects with a
    [TypeError]; it does not answer 400 without a call. *)
Theorem handler_inherited_method controller event :
  conditions controller !! APIGatewayProxyEvent.httpMethod event = None ->
  In (APIGatewayProxyEvent.httpMethod event) objectPrototypeKeys ->
  (exists rest,
     fst (dispatch controller event)
     = ValidationCall None
         (APIGatewayProxyEvent.headers event)
         (APIGatewayProxyEvent.pathParameters event)
         (APIGatewayProxyEvent.body event)
         (APIGatewayProxyEvent.queryStringParameters event) :: rest) /\
  (Validation_check None
     (APIGatewayProxyEvent.headers event)
     (APIGatewayProxyEvent.pathParameters event)
     (APIGatewayProxyEvent.body event)
     (APIGatewayProxyEvent.queryStringParameters event)
   = Returns (Fulfilled true) ->
   members controller !! "undefined" = None ->
   dispatch controller event
   = ([ValidationCall None
         (APIGatewayProxyEvent.headers event)
         (APIGatewayProxyEvent.pathParameters event)
         (APIGatewayProxyEvent.body event)
         (APIGatewayProxyEvent.queryStringParameters event)],
      Rejected TypeError)).
Proof.
  intros Hunbound Hinherited. unfold handler, conditionsLookup.
  rewrite Hunbound.
  rewrite bool_decide_eq_true_2 by now apply list_elem_of_In.
  unfold auth, validationCall. read_condition. rewrite bind_ret_l.
  cbn [error401 error500]. split.
  - destruct (Validation_check None _ _ _ _) as [r|p]; simpl invoke.
    + now eexists.
    + rewrite bind_fulfilled. now eexists.
  - intros Hpasses Hmember. rewrite Hpasses.
    unfold customValidation, callFunction, CallFunction in *.
    read_condition. rewrite Hmember. reflexivity.
Qed.

(** C4: with [isAuthentication] unset, the authentication outcome is
    success without user information whether or not an authentication
    function is configured, the dispatch never calls the authentication
    function, and any call of the bound function carries no [userInfo]. *)
Theorem handler_without_authentication controller event condition :
  conditions controller !! APIGatewayProxyEvent.httpMethod event
    = Some condition ->
  isAuthentication condition = false ->
  authenticate event condition =
    ([], Fulfilled
           {| userInfo := None; error401 := false; error500 := false |}) /\
  (forall ev,
     ~ In (AuthenticationCall ev) (fst (dispatch controller event))) /\
  (forall key arg,
     In (FunctionCall key arg) (fst (dispatch controller event)) ->
     CallFunctionEventParameter.userInfo arg = None).
Proof.
  intros Hbound Hskip.
  pose proof (auth_skipped event condition Hskip) as Hauth.
  split; [exact Hauth|].
  unfold handler, conditionsLookup. rewrite Hbound, Hauth. simpl.
  destruct (Validation_check _ _ _ _ _) as [r|[[|]|r]]; simpl;
    try (split; intros; intuition discriminate).
  unfold customValidation, callFunction. read_condition.
  destruct (customValidationFunc condition) as [cf|]; simpl.
  - destruct (cf _) as [r|[cr|r]]; simpl;
      try (split; intros; intuition discriminate).
    destruct (errorResponse cr); [|destruct (validationResult cr)]; simpl;
      try (split; intros; intuition discriminate).
    destruct (members controller !! func condition) as [f|]; simpl;
      try (split; intros; intuition discriminate).
    destruct (f _) as [r|[a|r]]; simpl;
      (split; intros; intuition (try discriminate));
      match goal with H : FunctionCall _ _ = FunctionCall _ _ |- _ =>
        now inversion H end.
  - destruct (members controller !! func condition) as [f|]; simpl;
      try (split; intros; intuition discriminate).
    destruct (f _) as [r|[a|r]]; simpl;
      (split; intros; intuition (try discriminate));
      match goal with H : FunctionCall _ _ = FunctionCall _ _ |- _ =>
        now inversion H end.
Qed.

(** C5: with [isAuthentication] set and no authentication function
    configured, the dispatch fulfils with the internal server error
    response, which is not the unauthorized response, and nothing is
    called: not the bound function either. *)
Theorem handler_authentication_unconfigured controller event condition :
  conditions controller !! APIGatewayProxyEvent.httpMethod event
    = Some condition ->
  isAuthentication condition = true ->
  authenticationFunc = None ->
  dispatch controller event = ([], Fulfilled internalServerErrorResponse) /\
  internalServerErrorResponse <> unauthorizeErrorResponse.
Proof.
  intros Hbound Hreq Hnone. split; [|discriminate].
  unfold handler, conditionsLookup.
  now rewrite Hbound, (auth_unconfigured event condition Hreq Hnone).
Qed.

(** C9: after [setMethod method condition] the lookup of [method] gives
    [condition], whatever was registered before; the lookup of any other
    method is as before; the members are untouched. *)
Theorem setMethod_lookup (method : HttpMethod) condition controller :
  conditions (setMethod method condition controller) !! method
    = Some condition /\
  (forall method' : HttpMethod,
     method' <> method ->
     conditions (setMethod method condition controller) !! method'
       = conditions controller !! method') /\
  members (setMethod method condition controller) = members controller.
Proof.
  unfold setMethod. simpl. split; [apply lookup_insert_eq|].
  split; [|reflexivity].
  intros method' Hne. now apply lookup_insert_ne.
Qed.

(** C10: an authentication outcome with both [error401] and [error500]
    set is answered with the unauthorized response, which is not the
    internal server error response: [error401] is tested first. *)
Theorem handler_error401_before_error500
    controller event condition calls authResult :
  conditions controller !! APIGatewayProxyEvent.httpMethod event
    = Some condition ->
  authenticate event condition = (calls, Fulfilled authResult) ->
  error401 authResult = true ->
  error500 authResult = true ->
  dispatch controller event = (calls, Fulfilled unauthorizeErrorResponse) /\
  unauthorizeErrorResponse <> internalServerErrorResponse.
Proof.
  intros Hbound Hauth H401 _. split; [|discriminate].
  exact (handler_error401 _ _ _ _ _ Hbound Hauth H401).
Qed.
End Properties.


(** * The properties on the example controller *)

Section Instances.
Import Example.

Local Abbreviation skipped :=
  {| userInfo := @None UserInfo; error401 := false; error500 := false |}.
Local Abbreviation accepted :=
  {| userInfo := Some "u1"; error401 := false; error500 := false |}.
Local Abbreviation getValidation :=
  (ValidationCall (E := UserInfo) (Some noValidation) ∅ None None None).
Local Abbreviation getCustomValidation :=
  (CustomValidationCall (E := UserInfo) (Validator := Validator)
     (customValidationEvent getEvent)).

(** C1: GET is bound without authentication and with a custom validation
    function whose promise rejects. The dispatch rejects with the same
    reason after the two validation calls; it does not fulfil with the
    internal server error response. *)
Theorem handler_customValidation_rejection_escapes :
  handler check None (controller false (Some customRejects)) getEvent =
    ([getValidation; getCustomValidation], Rejected (Raised "boom")) /\
  snd (handler check None (controller false (Some customRejects)) getEvent)
    <> Fulfilled internalServerErrorResponse.
Proof.
  assert (handler check None (controller false (Some customRejects))
            getEvent
          = ([getValidation; getCustomValidation],
             Rejected (Raised "boom"))) as Hrun.
  { apply (handler_customValidation_rejects check None
             (controller false (Some customRejects)) getEvent
             (condition false (Some customRejects)) [] skipped
             eq_refl eq_refl eq_refl eq_refl eq_refl customRejects
             (Raised "boom") eq_refl eq_refl). }
  split; [exact Hrun|]. rewrite Hrun. discriminate.
Qed.

Lemma handler_unauthorized_witness :
  handler check (Some unauthorized) (controller true None) getEvent =
    ([AuthenticationCall getEvent], Fulfilled unauthorizeErrorResponse).
Proof.
  apply (handler_unauthorized check (Some unauthorized)
           (controller true None) getEvent (condition true None)
           [AuthenticationCall getEvent]
           {| userInfo := None; error401 := true; error500 := false |});
    reflexivity.
Defined.

(** A request with method [constructor] on a controller without any
    binding, with a [Validation.check] that passes whatever it is given. *)
Lemma handler_inherited_method_witness :
  (exists rest,
     fst (handler check None emptyController constructorEvent)
     = ValidationCall None ∅ None None None :: rest) /\
  handler check None emptyController constructorEvent
  = ([ValidationCall None ∅ None None None], Rejected TypeError).
Proof.
  destruct (handler_inherited_method check None emptyController
              constructorEvent) as [Hcalls Hrejects].
  - reflexivity.
  - simpl. tauto.
  - split; [exact Hcalls|]. apply Hrejects; reflexivity.
Defined.

Lemma handler_without_authentication_witness :
  auth (Some accepts) getEvent (condition false None)
    = ([], Fulfilled skipped) /\
  (forall ev,
     ~ In (AuthenticationCall ev)
         (fst (handler check (Some accepts) (controller false None)
                 getEvent))) /\
  (forall key arg,
     In (FunctionCall key arg)
        (fst (handler check (Some accepts) (controller false None)
                getEvent)) ->
     CallFunctionEventParameter.userInfo arg = None).
Proof.
  apply (handler_without_authentication check (Some accepts)
           (controller false None) getEvent (condition false None));
    reflexivity.
Defined.

Lemma handler_authentication_unconfigured_witness :
  handler check None (controller true None) getEvent =
    ([], Fulfilled internalServerErrorResponse) /\
  internalServerErrorResponse <> unauthorizeErrorResponse.
Proof.
  apply (handler_authentication_unconfigured check None
           (controller true None) getEvent (condition true None));
    reflexivity.
Defined.

Lemma handler_errorResponse_wins_witness :
  handler check None (controller false (Some customOverrides)) getEvent =
    ([getValidation; getCustomValidation], Fulfilled teapotResponse).
Proof.
  apply (handler_errorResponse_wins check None
           (controller false (Some customOverrides)) getEvent
           (condition false (Some customOverrides)) [] skipped
           eq_refl eq_refl eq_refl eq_refl eq_refl customOverrides
           {| validationResult := true;
              errorResponse := Some teapotResponse |} teapotResponse);
    reflexivity.
Defined.

Lemma handler_customValidation_fails_witness :
  handler check None (controller false (Some customFails)) getEvent =
    ([getValidation; getCustomValidation], Fulfilled badRequestResponse) /\
  List.filter isFunctionCall
    (fst (handler check None (controller false (Some customFails))
            getEvent)) = [].
Proof.
  apply (handler_customValidation_fails check None
           (controller false (Some customFails)) getEvent
           (condition false (Some customFails)) [] skipped
           eq_refl eq_refl eq_refl eq_refl eq_refl customFails
           {| validationResult := false; errorResponse := None |});
    reflexivity.
Defined.

(** GET bound with authentication, the authentication function answers
    with user [u1], no validators, a passing custom validation, and a
    function that answers 200/ok. *)
Lemma handler_calls_function_witness :
  handler check (Some accepts) (controller true (Some customPasses))
    getEvent =
    ([AuthenticationCall getEvent; getValidation; getCustomValidation;
      FunctionCall "get" (callFunctionEvent getEvent accepted)],
     Fulfilled okResponse) /\
  List.filter isFunctionCall
    (fst (handler check (Some accepts)
            (controller true (Some customPasses)) getEvent)) =
    [FunctionCall "get"
       {| CallFunctionEventParameter.headers := ∅;
          CallFunctionEventParameter.pathParameters := None;
          CallFunctionEventParameter.body := None;
          CallFunctionEventParameter.queryParameters := None;
          CallFunctionEventParameter.userInfo := Some "u1" |}].
Proof.
  apply (handler_calls_function check (Some accepts)
           (controller true (Some customPasses)) getEvent
           (condition true (Some customPasses))
           [AuthenticationCall getEvent] accepted
           eq_refl eq_refl eq_refl eq_refl eq_refl
           [getCustomValidation] get (Fulfilled okResponse)).
  - right. exists customPasses.
    exists {| validationResult := true; errorResponse := None |}.
    repeat split; reflexivity.
  - reflexivity.
  - reflexivity.
Defined.

(** The same dispatch with a bound function whose promise rejects: the
    reason is dropped and the answer is the internal server error. *)
Example handler_function_rejects :
  handler check (Some accepts)
    {| conditions := {[ "GET" := condition true None ]};
       members := {[ "get" := getRejects ]} |} getEvent =
    ([AuthenticationCall getEvent; getValidation;
      FunctionCall "get" (callFunctionEvent getEvent accepted)],
     Fulfilled internalServerErrorResponse).
Proof. reflexivity. Qed.

(** Rebinding GET on a controller that has GET bound already. *)
Lemma setMethod_lookup_witness :
  conditions (setMethod "GET" (condition true None)
                (controller false None)) !! "GET"
    = Some (condition true None) /\
  conditions (setMethod "POST" (condition true None)
                (controller false None)) !! "GET"
    = Some (condition false None).
Proof.
  split.
  - apply (setMethod_lookup "GET" (condition true None)
             (controller false None)).
  - destruct (setMethod_lookup "POST" (condition true None)
                (controller false None)) as (_ & Hframe & _).
    transitivity (conditions (controller false None) !! "GET");
      [apply (Hframe "GET"); discriminate | reflexivity].
Defined.

Lemma handler_error401_before_error500_witness :
  handler check (Some bothErrors) (controller true None) getEvent =
    ([AuthenticationCall getEvent], Fulfilled unauthorizeErrorResponse) /\
  unauthorizeErrorResponse <> internalServerErrorResponse.
Proof.
  apply (handler_error401_before_error500 check (Some bothErrors)
           (controller true None) getEvent (condition true None)
           [AuthenticationCall getEvent]
           {| userInfo := None; error401 := true; error500 := true |});
    reflexivity.
Defined.
End Instances.

(** * Further properties of the dispatcher *)

Section Stages.
Context {E Validator Thrown : Type}.
Variable Validation_check : ValidationFunction Validator Thrown.
Variable authenticationFunc : option (AuthenticationFunction E Thrown).

Implicit Types (controller : HttpMethodController E Validator Thrown).
Implicit Types (condition : Condition Validator Thrown).
Implicit Types (event : APIGatewayProxyEvent.t).
Implicit Types (authResult : AuthenticationFunctionResult E).
Implicit Types (calls : list (Call E Validator)).

Local Abbreviation dispatch := (handler Validation_check authenticationFunc).
Local Abbreviation authenticate := (auth authenticationFunc).

Lemma handler_error500 controller event condition calls authResult :
  conditions controller !! APIGatewayProxyEvent.httpMethod event
    = Some condition ->
  authenticate event condition = (calls, Fulfilled authResult) ->
  error401 authResult = false ->
  error500 authResult = true ->
  dispatch controller event = (calls, Fulfilled internalServerErrorResponse).
Proof.
  intros Hbound Hauth H401 H500. unfold handler, conditionsLookup.
  rewrite Hbound, Hauth, bind_fulfilled, H401, H500. simpl.
  now rewrite app_nil_r.
Qed.

(** X1: when the configured authentication function returns a promise that
    rejects, the reason is dropped: the dispatch fulfils with the internal
    server error response and nothing but the authentication function has
    been called. *)
Theorem handler_authentication_rejects controller event condition f r :
  conditions controller !! APIGatewayProxyEvent.httpMethod event
    = Some condition ->
  isAuthentication condition = true ->
  authenticationFunc = Some f ->
  f event = Returns (Rejected r) ->
  dispatch controller event =
    ([AuthenticationCall event], Fulfilled internalServerErrorResponse).
Proof.
  intros Hbound Hreq Hf Hr.
  apply (handler_error500 controller event condition
           [AuthenticationCall event]
           {| userInfo := None; error401 := false; error500 := true |});
    try reflexivity; try assumption.
  unfold auth. read_condition. now rewrite Hreq, Hf, Hr.
Qed.

(** X2: an authentication result with [error500] set and [error401] unset
    ends the dispatch with the internal server error response; validation,
    custom validation and the bound function are not called. *)
Theorem handler_authentication_error500 controller event condition f a :
  conditions controller !! APIGatewayProxyEvent.httpMethod event
    = Some condition ->
  isAuthentication condition = true ->
  authenticationFunc = Some f ->
  f event = Returns (Fulfilled a) ->
  error401 a = false ->
  error500 a = true ->
  dispatch controller event =
    ([AuthenticationCall event], Fulfilled internalServerErrorResponse).
Proof.
  intros Hbound Hreq Hf Ha H401 H500.
  apply (handler_error500 controller event condition
           [AuthenticationCall event] a); try assumption.
  unfold auth. read_condition. now rewrite Hreq, Hf, Ha.
Qed.

(** X3: the [catch] in [auth] is attached to the promise the authentication
    function returns. When the function throws before returning one, the
    dispatch rejects with what was thrown instead of answering 500. *)
Theorem handler_authentication_throws controller event condition f r :
  conditions controller !! APIGatewayProxyEvent.httpMethod event
    = Some condition ->
  isAuthentication condition = true ->
  authenticationFunc = Some f ->
  f event = Throws r ->
  dispatch controller event = ([AuthenticationCall event], Rejected r).
Proof.
  intros Hbound Hreq Hf Hr. unfold handler, conditionsLookup, auth.
  rewrite Hbound. read_condition. now rewrite Hreq, Hf, Hr.
Qed.

(** X4: when [Validation.check] fulfils with false the dispatch fulfils with
    the bad request response right after that call: neither the custom
    validation function nor the bound function is called. *)
Theorem handler_validation_fails controller event condition calls authResult :
  conditions controller !! APIGatewayProxyEvent.httpMethod event
    = Some condition ->
  authenticate event condition = (calls, Fulfilled authResult) ->
  error401 authResult = false ->
  error500 authResult = false ->
  Validation_check (Some (validation condition))
    (APIGatewayProxyEvent.headers event)
    (APIGatewayProxyEvent.pathParameters event)
    (APIGatewayProxyEvent.body event)
    (APIGatewayProxyEvent.queryStringParameters event)
  = Returns (Fulfilled false) ->
  dispatch controller event =
    (calls ++ [validationCall condition event], Fulfilled badRequestResponse).
Proof.
  intros Hbound Hauth H401 H500 Hcheck. unfold handler, conditionsLookup.
  rewrite Hbound, Hauth, bind_fulfilled, H401, H500.
  read_condition. rewrite Hcheck. reflexivity.
Qed.

(** X5: no [catch] surrounds [Validation.check]. When it throws, or its
    promise rejects, the dispatch rejects with the same reason right after
    that call. *)
Theorem handler_validation_rejects
    controller event condition calls authResult r :
  conditions controller !! APIGatewayProxyEvent.httpMethod event
    = Some condition ->
  authenticate event condition = (calls, Fulfilled authResult) ->
  error401 authResult = false ->
  error500 authResult = false ->
  Validation_check (Some (validation condition))
    (APIGatewayProxyEvent.headers event)
    (APIGatewayProxyEvent.pathParameters event)
    (APIGatewayProxyEvent.body event)
    (APIGatewayProxyEvent.queryStringParameters event) = Throws r \/
  Validation_check (Some (validation condition))
    (APIGatewayProxyEvent.headers event)
    (APIGatewayProxyEvent.pathParameters event)
    (APIGatewayProxyEvent.body event)
    (APIGatewayProxyEvent.queryStringParameters event)
    = Returns (Rejected r) ->
  dispatch controller event =
    (calls ++ [validationCall condition event], Rejected r).
Proof.
  intros Hbound Hauth H401 H500 Hcheck. unfold handler, conditionsLookup.
  rewrite Hbound, Hauth, bind_fulfilled, H401, H500. read_condition.
  now destruct Hcheck as [-> | ->].
Qed.

(** X6: [setMethod] does not look at [condition.func]. When it names no
    member of the controller, a request that passes every gate makes the
    dispatch reject with a [TypeError], after the gates have been called. *)
Theorem handler_unresolved_func
    controller event condition calls authResult ccalls :
  conditions controller !! APIGatewayProxyEvent.httpMethod event
    = Some condition ->
  authenticate event condition = (calls, Fulfilled authResult) ->
  error401 authResult = false ->
  error500 authResult = false ->
  Validation_check (Some (validation condition))
    (APIGatewayProxyEvent.headers event)
    (APIGatewayProxyEvent.pathParameters event)
    (APIGatewayProxyEvent.body event)
    (APIGatewayProxyEvent.queryStringParameters event)
  = Returns (Fulfilled true) ->
  passesCustomValidation condition event ccalls ->
  members controller !! func condition = None ->
  dispatch controller event =
    (calls ++ validationCall condition event :: ccalls, Rejected TypeError).
Proof.
  intros Hbound Hauth H401 H500 Hcheck Hpass Hmember.
  rewrite (handler_passes_customValidation Validation_check
             authenticationFunc controller event condition calls authResult
             Hbound Hauth H401 H500 Hcheck ccalls Hpass).
  unfold callFunction, CallFunction in *. read_condition. rewrite Hmember. simpl.
  now rewrite app_nil_r.
Qed.

(** X7: when the bound function throws before returning a promise, the
    [catch] of line 143 is never attached: the dispatch rejects with what
    was thrown. *)
Theorem handler_function_throws
    controller event condition calls authResult ccalls f r :
  conditions controller !! APIGatewayProxyEvent.httpMethod event
    = Some condition ->
  authenticate event condition = (calls, Fulfilled authResult) ->
  error401 authResult = false ->
  error500 authResult = false ->
  Validation_check (Some (validation condition))
    (APIGatewayProxyEvent.headers event)
    (APIGatewayProxyEvent.pathParameters event)
    (APIGatewayProxyEvent.body event)
    (APIGatewayProxyEvent.queryStringParameters event)
  = Returns (Fulfilled true) ->
  passesCustomValidation condition event ccalls ->
  members controller !! func condition = Some f ->
  f (callFunctionEvent event authResult) = Throws r ->
  dispatch controller event =
    (calls ++ validationCall condition event :: ccalls ++
       [FunctionCall (func condition) (callFunctionEvent event authResult)],
     Rejected r).
Proof.
  intros Hbound Hauth H401 H500 Hcheck Hpass Hmember Hthrows.
  rewrite (handler_passes_customValidation Validation_check
             authenticationFunc controller event condition calls authResult
             Hbound Hauth H401 H500 Hcheck ccalls Hpass).
  unfold callFunction. read_condition. rewrite Hmember, Hthrows. reflexivity.
Qed.

(** X18: a request whose method is neither a key [setMethod] wrote nor the
    name of a property of [Object.prototype] is answered with the bad
    request response, and nothing is called on the way. *)
Theorem handler_undefined_condition controller event :
  conditions controller !! APIGatewayProxyEvent.httpMethod event = None ->
  ~ In (APIGatewayProxyEvent.httpMethod event) objectPrototypeKeys ->
  dispatch controller event = ([], Fulfilled badRequestResponse).
Proof.
  intros Hunbound Hown. unfold handler, conditionsLookup.
  rewrite Hunbound.
  rewrite bool_decide_eq_false_2; [reflexivity|].
  intros Hin. now apply Hown, list_elem_of_In.
Qed.
End Stages.

(** Reading [conditions] gives a registered condition exactly when
    [setMethod] wrote it. *)
Lemma conditionsLookup_Registered {E Validator Thrown : Type}
    (controller : HttpMethodController E Validator Thrown)
    (key : HttpMethod) (condition : Condition Validator Thrown) :
  conditionsLookup controller key = Some (Registered condition) <->
  conditions controller !! key = Some condition.
Proof.
  unfold conditionsLookup.
  destruct (conditions controller !! key) as [c|].
  - split; intros H; inversion H; reflexivity.
  - split; [|discriminate]. now destruct (bool_decide _).
Qed.

(** A case analysis of a dispatch: every test the dispatcher makes on its
    bindings and on what the injected functions answer is decided, with the
    decision kept as an equation. *)
Ltac decide_dispatch :=
  unfold handler, auth, customValidation, callFunction, validationCall,
    CallFunction, invoke, await, ret, reject in *;
  simpl;
  repeat match goal with
  | |- context [match ?x with _ => _ end] =>
      let T := type of x in
      let T' := eval hnf in T in
      lazymatch T' with
      | prod _ _ => fail
      | _ => destruct x eqn:?; simpl
      end
  end.

Section Invariants.
Context {E Validator Thrown : Type}.
Variable Validation_check : ValidationFunction Validator Thrown.
Variable authenticationFunc : option (AuthenticationFunction E Thrown).

Implicit Types (controller : HttpMethodController E Validator Thrown).
Implicit Types (condition : Condition Validator Thrown).
Implicit Types (event : APIGatewayProxyEvent.t).
Implicit Types (calls : list (Call E Validator)).

Local Abbreviation dispatch := (handler Validation_check authenticationFunc).

(** X8: no stage is tried twice and none out of turn: along the calls of a
    dispatch the stages strictly increase (authentication, validation,
    custom validation, bound function). *)
Theorem handler_stages_increase controller event :
  StronglySorted lt (map callStage (fst (dispatch controller event))).
Proof.
  decide_dispatch.
  all: repeat constructor.
Qed.

(** X9: the bound function is called only for a request that went through
    every gate: [Validation.check] fulfilled with true; when the binding
    asks for authentication, the configured function fulfilled with neither
    error flag set and its [userInfo] is the one handed to the bound
    function; a bound custom validation function fulfilled with
    [validationResult] true and no [errorResponse]. *)
Theorem handler_function_called_past_gates
    controller event condition key arg :
  conditions controller !! APIGatewayProxyEvent.httpMethod event
    = Some condition ->
  In (FunctionCall key arg) (fst (dispatch controller event)) ->
  Validation_check (Some (validation condition))
    (APIGatewayProxyEvent.headers event)
    (APIGatewayProxyEvent.pathParameters event)
    (APIGatewayProxyEvent.body event)
    (APIGatewayProxyEvent.queryStringParameters event)
    = Returns (Fulfilled true) /\
  (isAuthentication condition = true ->
   exists f a,
     authenticationFunc = Some f /\
     f event = Returns (Fulfilled a) /\
     error401 a = false /\ error500 a = false /\
     CallFunctionEventParameter.userInfo arg = userInfo a) /\
  (forall cf,
     customValidationFunc condition = Some cf ->
     exists r,
       cf (customValidationEvent event) = Returns (Fulfilled r) /\
       errorResponse r = None /\ validationResult r = true).
Proof.
  intros Hbound. unfold handler, conditionsLookup. rewrite Hbound. clear Hbound.
  decide_dispatch.
  all: intros Hin;
    repeat (destruct Hin as [Hin|Hin]; try discriminate Hin);
    try contradiction.
  all: inversion Hin; subst; clear Hin.
  all: repeat match goal with
       | H : negb _ = false |- _ => apply negb_false_iff in H
       | H : catch ?p _ = Fulfilled _ |- _ =>
           destruct p; simpl in H; inversion H; subst; clear H
       end.
  all: subst; try discriminate.
  all: split; [reflexivity|split].
  all: try (intros Hreq; discriminate Hreq).
  all: try (intros _; eexists _, _; repeat split;
            first [eassumption | reflexivity]).
  all: intros cf Hcf; inversion Hcf; subst; eexists; repeat split;
    eassumption.
Qed.

(** X10: the dispatcher hands the request on untouched: the authentication
    function gets the event itself; [Validation.check] gets the binding's
    validators and the event's headers, path parameters, body and query
    parameters; the custom validation function and the bound function get
    those same four fields, the latter under the key [condition.func]. *)
Theorem handler_calls_from_event controller event condition :
  conditions controller !! APIGatewayProxyEvent.httpMethod event
    = Some condition ->
  Forall (callFromEvent condition event) (fst (dispatch controller event)).
Proof.
  intros Hbound. unfold handler, conditionsLookup. rewrite Hbound. clear Hbound.
  decide_dispatch.
  all: repeat constructor.
Qed.

(** X11: a dispatch rejects for one of five reasons only, [condition]
    being what [conditions] gave for the request's method (a registered
    condition or a member of [Object.prototype]): the authentication
    function threw before returning its promise; [Validation.check] threw
    or rejected; the custom validation function threw or rejected;
    [condition.func] names no member of the controller; the bound function
    threw before returning its promise. *)
Theorem handler_rejection_causes controller event r :
  snd (dispatch controller event) = Rejected r ->
  exists condition : ConditionsValue Validator Thrown,
    conditionsLookup controller (APIGatewayProxyEvent.httpMethod event)
      = Some condition /\
    ((conditionIsAuthentication condition = true /\
      exists f, authenticationFunc = Some f /\ f event = Throws r) \/
     (Validation_check (conditionValidation condition)
        (APIGatewayProxyEvent.headers event)
        (APIGatewayProxyEvent.pathParameters event)
        (APIGatewayProxyEvent.body event)
        (APIGatewayProxyEvent.queryStringParameters event) = Throws r \/
      Validation_check (conditionValidation condition)
        (APIGatewayProxyEvent.headers event)
        (APIGatewayProxyEvent.pathParameters event)
        (APIGatewayProxyEvent.body event)
        (APIGatewayProxyEvent.queryStringParameters event)
        = Returns (Rejected r)) \/
     (exists cf,
        conditionCustomValidationFunc condition = Some cf /\
        (cf (customValidationEvent event) = Throws r \/
         cf (customValidationEvent event) = Returns (Rejected r))) \/
     (members controller !! conditionFunc condition = None /\
      r = TypeError) \/
     (exists g authResult,
        members controller !! conditionFunc condition = Some g /\
        g (callFunctionEvent event authResult) = Throws r)).
Proof.
  decide_dispatch.
  all: intros Hrejected; try discriminate Hrejected.
  all: repeat match goal with
       | H : catch ?p _ = _ |- _ => destruct p; simpl in H; try discriminate H
       end.
  all: inversion Hrejected; subst; clear Hrejected.
  all: eexists; split; [reflexivity|].
  all: first
    [ solve [left; eauto]
    | solve [right; left; eauto]
    | solve [right; right; left; eauto]
    | solve [right; right; right; left; eauto]
    | solve [right; right; right; right; eauto] ].
Qed.

(** X12: whatever a dispatch fulfils with is one of the three canonical
    responses, the [errorResponse] of the bound custom validation function,
    or the response the function found under [condition.func] fulfilled
    with, [condition] being what [conditions] gave for the request's
    method. *)
Theorem handler_fulfilment_origin controller event response :
  snd (dispatch controller event) = Fulfilled response ->
  response = badRequestResponse \/
  response = unauthorizeErrorResponse \/
  response = internalServerErrorResponse \/
  (exists condition cf r,
     conditions controller !! APIGatewayProxyEvent.httpMethod event
       = Some condition /\
     customValidationFunc condition = Some cf /\
     cf (customValidationEvent event) = Returns (Fulfilled r) /\
     errorResponse r = Some response) \/
  (exists (condition : ConditionsValue Validator Thrown) g arg,
     conditionsLookup controller (APIGatewayProxyEvent.httpMethod event)
       = Some condition /\
     members controller !! conditionFunc condition = Some g /\
     g arg = Returns (Fulfilled response)).
Proof.
  decide_dispatch.
  all: intros Hfulfilled; try discriminate Hfulfilled.
  all: inversion Hfulfilled; subst; clear Hfulfilled.
  all: repeat match goal with
       | H : catch ?p _ = _ |- _ =>
           destruct p; simpl in H; inversion H; subst; clear H
       end.
  all: try match goal with
       | Hl : conditionsLookup _ _ = Some ?c,
         H : conditionCustomValidationFunc ?c = Some _ |- _ =>
           destruct c; [|discriminate H];
           pose proof (proj1 (conditionsLookup_Registered _ _ _) Hl);
           simpl in H
       end.
  all: first
    [ solve [left; reflexivity]
    | solve [right; left; reflexivity]
    | solve [right; right; left; reflexivity]
    | solve [right; right; right; left; eauto 7]
    | solve [right; right; right; right; eauto 7] ].
Qed.
End Invariants.

(** ** Bindings and dispatch *)

Section Bindings.
Context {E Validator Thrown : Type}.
Variable Validation_check : ValidationFunction Validator Thrown.

Implicit Types (controller : HttpMethodController E Validator Thrown).
Implicit Types (condition : Condition Validator Thrown).
Implicit Types (event : APIGatewayProxyEvent.t).
Implicit Types (authenticationFunc : option (AuthenticationFunction E Thrown)).

(** A dispatch reads the binding of the event's method and the members,
    nothing else of the controller. *)
Lemma handler_ext authenticationFunc controller controller' event :
  conditions controller !! APIGatewayProxyEvent.httpMethod event
    = conditions controller' !! APIGatewayProxyEvent.httpMethod event ->
  members controller = members controller' ->
  handler Validation_check authenticationFunc controller event
    = handler Validation_check authenticationFunc controller' event.
Proof.
  intros Hbinding Hmembers. unfold handler, conditionsLookup, callFunction.
  now rewrite Hbinding, Hmembers.
Qed.

(** X13: binding a method leaves the dispatch of requests for every other
    method as it was. *)
Theorem handler_setMethod_other
    authenticationFunc controller event (method : HttpMethod) condition :
  APIGatewayProxyEvent.httpMethod event <> method ->
  handler Validation_check authenticationFunc
    (setMethod method condition controller) event
  = handler Validation_check authenticationFunc controller event.
Proof.
  intros Hother. apply handler_ext; [|reflexivity].
  unfold setMethod. simpl. now apply lookup_insert_ne.
Qed.

(** X14: when the binding does not ask for authentication, the dispatch is
    the same whatever sits in the static [authenticationFunc] slot. *)
Theorem handler_ignores_authenticationFunc
    authenticationFunc authenticationFunc' controller event condition :
  conditions controller !! APIGatewayProxyEvent.httpMethod event
    = Some condition ->
  isAuthentication condition = false ->
  handler Validation_check authenticationFunc controller event
  = handler Validation_check authenticationFunc' controller event.
Proof.
  intros Hbound Hskip. unfold handler, conditionsLookup, auth.
  rewrite Hbound. read_condition. now rewrite Hskip.
Qed.

(** X15: binding the same method twice leaves the second binding alone in
    charge: every request is dispatched as if the first had never been
    made. *)
Theorem handler_setMethod_twice
    authenticationFunc controller event
    (method : HttpMethod) condition condition' :
  handler Validation_check authenticationFunc
    (setMethod method condition' (setMethod method condition controller))
    event
  = handler Validation_check authenticationFunc
      (setMethod method condition' controller) event.
Proof.
  apply handler_ext; [|reflexivity].
  unfold setMethod. simpl. now rewrite insert_insert_eq.
Qed.

(** X16: bindings of two different methods can be made in either order:
    every request is dispatched alike. *)
Theorem handler_setMethod_commutes
    authenticationFunc controller event
    (method method' : HttpMethod) condition condition' :
  method <> method' ->
  handler Validation_check authenticationFunc
    (setMethod method condition (setMethod method' condition' controller))
    event
  = handler Validation_check authenticationFunc
      (setMethod method' condition' (setMethod method condition controller))
      event.
Proof.
  intros Hne. apply handler_ext; [|reflexivity].
  unfold setMethod. simpl. now rewrite insert_insert_ne.
Qed.

(** X17: with [authentication] of the example installed, a request for a
    binding that asks for authentication always gets past the
    authentication gate: [Validation.check] is called next, and any call of
    the bound function carries the fixed admin user. *)
Theorem handler_example_authentication
    (controller :
       HttpMethodController ExampleAuthentication.UserType Validator Thrown)
    (check : ValidationFunction Validator Thrown) event condition :
  conditions controller !! APIGatewayProxyEvent.httpMethod event
    = Some condition ->
  isAuthentication condition = true ->
  (exists rest,
     fst (handler check (Some ExampleAuthentication.authentication)
            controller event)
     = AuthenticationCall event :: validationCall condition event :: rest) /\
  (forall key arg,
     In (FunctionCall key arg)
        (fst (handler check (Some ExampleAuthentication.authentication)
                controller event)) ->
     CallFunctionEventParameter.userInfo arg
     = Some {| ExampleAuthentication.userId :=
                 "6e1dca92-70f5-4531-8dc2-cc20dbca363b";
               ExampleAuthentication.role := "admin" |}).
Proof.
  intros Hbound Hreq. unfold handler, conditionsLookup, auth.
  rewrite Hbound. read_condition. rewrite Hreq.
  unfold ExampleAuthentication.authentication.
  decide_dispatch.
  all: split; [now eexists|].
  all: intros key arg Hin;
    repeat (destruct Hin as [Hin|Hin]; try discriminate Hin);
    try contradiction.
  all: now inversion Hin.
Qed.
End Bindings.

(** ** The further properties on the example controller *)

Section MoreInstances.
Import Example Cases.

Local Abbreviation skipped :=
  {| userInfo := @None UserInfo; error401 := false; error500 := false |}.
Local Abbreviation accepted :=
  {| userInfo := Some "u1"; error401 := false; error500 := false |}.
Local Abbreviation getValidation :=
  (ValidationCall (E := UserInfo) (Some noValidation) ∅ None None None).
Local Abbreviation getCustomValidation :=
  (CustomValidationCall (E := UserInfo) (Validator := Validator)
     (customValidationEvent getEvent)).

Lemma handler_authentication_rejects_witness :
  handler check (Some authRejects) (controller true None) getEvent =
    ([AuthenticationCall getEvent], Fulfilled internalServerErrorResponse).
Proof.
  apply (handler_authentication_rejects check (Some authRejects)
           (controller true None) getEvent (condition true None)
           authRejects (Raised "expired"));
    reflexivity.
Defined.

Lemma handler_authentication_error500_witness :
  handler check (Some authInternal) (controller true None) getEvent =
    ([AuthenticationCall getEvent], Fulfilled internalServerErrorResponse).
Proof.
  apply (handler_authentication_error500 check (Some authInternal)
           (controller true None) getEvent (condition true None)
           authInternal
           {| userInfo := None; error401 := false; error500 := true |});
    reflexivity.
Defined.

Lemma handler_authentication_throws_witness :
  handler check (Some authThrows) (controller true None) getEvent =
    ([AuthenticationCall getEvent], Rejected (Raised "no header")).
Proof.
  apply (handler_authentication_throws check (Some authThrows)
           (controller true None) getEvent (condition true None)
           authThrows (Raised "no header"));
    reflexivity.
Defined.

Lemma handler_validation_fails_witness :
  handler checkFails None (controller false None) getEvent =
    ([getValidation], Fulfilled badRequestResponse).
Proof.
  apply (handler_validation_fails checkFails None (controller false None)
           getEvent (condition false None) [] skipped);
    reflexivity.
Defined.

Lemma handler_validation_rejects_witness :
  handler checkRejects None (controller false None) getEvent =
    ([getValidation], Rejected (Raised "schema")).
Proof.
  apply (handler_validation_rejects checkRejects None (controller false None)
           getEvent (condition false None) [] skipped (Raised "schema"));
    try reflexivity.
  right. reflexivity.
Defined.

Lemma handler_unresolved_func_witness :
  handler check None unresolved getEvent =
    ([getValidation], Rejected TypeError).
Proof.
  apply (handler_unresolved_func check None unresolved getEvent
           (condition false None) [] skipped []);
    try reflexivity.
  left. split; reflexivity.
Defined.

Lemma handler_function_throws_witness :
  handler check None throwing getEvent =
    ([getValidation;
      FunctionCall "get" (callFunctionEvent getEvent skipped)],
     Rejected (Raised "bug")).
Proof.
  apply (handler_function_throws check None throwing getEvent
           (condition false None) [] skipped [] getThrows (Raised "bug"));
    try reflexivity.
  left. split; reflexivity.
Defined.

Lemma handler_undefined_condition_witness :
  handler check (Some accepts) emptyController getEvent =
    ([], Fulfilled badRequestResponse).
Proof.
  apply (handler_undefined_condition check (Some accepts) emptyController
           getEvent).
  - reflexivity.
  - simpl. intuition discriminate.
Defined.

Lemma handler_function_called_past_gates_witness :
  check (Some noValidation) ∅ None None None = Returns (Fulfilled true) /\
  (true = true ->
   exists f a,
     Some accepts = Some f /\
     f getEvent = Returns (Fulfilled a) /\
     error401 a = false /\ error500 a = false /\
     Some "u1" = userInfo a) /\
  (forall cf,
     Some customPasses = Some cf ->
     exists r,
       cf (customValidationEvent getEvent) = Returns (Fulfilled r) /\
       errorResponse r = None /\ validationResult r = true).
Proof.
  apply (handler_function_called_past_gates check (Some accepts)
           (controller true (Some customPasses)) getEvent
           (condition true (Some customPasses)) "get"
           (callFunctionEvent getEvent accepted)).
  - reflexivity.
  - simpl. right. right. right. left. reflexivity.
Defined.

Lemma handler_calls_from_event_witness :
  Forall
    (callFromEvent (E := UserInfo) (condition true (Some customPasses))
       getEvent)
    (fst (handler check (Some accepts) (controller true (Some customPasses))
            getEvent)).
Proof.
  apply (handler_calls_from_event check (Some accepts)
           (controller true (Some customPasses)) getEvent
           (condition true (Some customPasses))).
  reflexivity.
Defined.

Lemma handler_rejection_causes_witness :
  exists c : ConditionsValue Validator Thrown,
    conditionsLookup (controller false (Some customRejects)) "GET" = Some c /\
    ((conditionIsAuthentication c = true /\
      exists f, @None (AuthenticationFunction UserInfo Thrown) = Some f /\
                f getEvent = Throws (Raised "boom")) \/
     (check (conditionValidation c) ∅ None None None
        = Throws (Raised "boom") \/
      check (conditionValidation c) ∅ None None None
        = Returns (Rejected (Raised "boom"))) \/
     (exists cf,
        conditionCustomValidationFunc c = Some cf /\
        (cf (customValidationEvent getEvent) = Throws (Raised "boom") \/
         cf (customValidationEvent getEvent)
           = Returns (Rejected (Raised "boom")))) \/
     (members (controller false (Some customRejects)) !! conditionFunc c
        = None /\
      Raised "boom" = TypeError) \/
     (exists g authResult,
        members (controller false (Some customRejects)) !! conditionFunc c
          = Some g /\
        g (callFunctionEvent getEvent authResult) = Throws (Raised "boom"))).
Proof.
  apply (handler_rejection_causes check None
           (controller false (Some customRejects)) getEvent (Raised "boom")).
  reflexivity.
Defined.

Lemma handler_fulfilment_origin_witness :
  teapotResponse = badRequestResponse \/
  teapotResponse = unauthorizeErrorResponse \/
  teapotResponse = internalServerErrorResponse \/
  (exists c cf r,
     conditions (controller false (Some customOverrides)) !! "GET" = Some c /\
     customValidationFunc c = Some cf /\
     cf (customValidationEvent getEvent) = Returns (Fulfilled r) /\
     errorResponse r = Some teapotResponse) \/
  (exists (c : ConditionsValue Validator Thrown) g
          (arg : CallFunctionEventParameter.t UserInfo),
     conditionsLookup (controller false (Some customOverrides)) "GET"
       = Some c /\
     members (controller false (Some customOverrides)) !! conditionFunc c
       = Some g /\
     g arg = Returns (Fulfilled teapotResponse)).
Proof.
  apply (handler_fulfilment_origin check None
           (controller false (Some customOverrides)) getEvent teapotResponse).
  reflexivity.
Defined.

(** Binding POST does not change what a GET request gets. *)
Lemma handler_setMethod_other_witness :
  handler check (Some accepts) (twoMethods None) getEvent
  = handler check (Some accepts) (controller false None) getEvent.
Proof.
  apply (handler_setMethod_other check (Some accepts) (controller false None)
           getEvent "POST" (condition true None)).
  discriminate.
Defined.

Lemma handler_ignores_authenticationFunc_witness :
  handler check (Some unauthorized) (controller false None) getEvent
  = handler check None (controller false None) getEvent.
Proof.
  apply (handler_ignores_authenticationFunc check (Some unauthorized) None
           (controller false None) getEvent (condition false None));
    reflexivity.
Defined.

Lemma handler_setMethod_commutes_witness :
  handler check (Some accepts)
    (setMethod "GET" (condition false None)
       (setMethod "POST" (condition true None) emptyController)) postEvent
  = handler check (Some accepts)
      (setMethod "POST" (condition true None)
         (setMethod "GET" (condition false None) emptyController)) postEvent.
Proof.
  apply (handler_setMethod_commutes check (Some accepts) emptyController
           postEvent "GET" "POST" (condition false None)
           (condition true None)).
  discriminate.
Defined.

Lemma handler_example_authentication_witness :
  (exists rest,
     fst (handler check (Some ExampleAuthentication.authentication)
            adminController getEvent)
     = AuthenticationCall getEvent
       ::
       ValidationCall (Some noValidation) ∅ None None None :: rest) /\
  (forall key arg,
     In (FunctionCall key arg)
        (fst (handler check (Some ExampleAuthentication.authentication)
                adminController getEvent)) ->
     CallFunctionEventParameter.userInfo arg
     = Some {| ExampleAuthentication.userId :=
                 "6e1dca92-70f5-4531-8dc2-cc20dbca363b";
               ExampleAuthentication.role := "admin" |}).
Proof.
  apply (handler_example_authentication adminController check getEvent
           {| isAuthentication := true;
              validation := noValidation;
              func := "whoami";
              customValidationFunc := None |});
    reflexivity.
Defined.

(** The admin of the example authentication, end to end. *)
Example handler_example_whoami :
  snd (handler check (Some ExampleAuthentication.authentication)
         adminController getEvent)
  = Fulfilled {| APIGatewayProxyResult.statusCode := 200;
                 APIGatewayProxyResult.body := "admin" |}.
Proof. reflexivity. Qed.
End MoreInstances.
